(** * IQSSA: the M/M/1 queue simulator of [app.py]

    A shallow embedding of the computational core of [app.py] (lines 26-52:
    the body of the "Run Simulation" branch), of the ranges of its sliders
    (lines 17-20) and of the loop of its Gantt chart (lines 63-66), with the
    properties of them that the specification states and further ones that
    the code shows.

    Numbers.  Every quantity of the program is a NumPy [float64] (or a
    Python [float]).  The program is embedded once, over an interface
    [Arith] of the arithmetic it uses, and the interface has two instances:
    - [float_arith]: IEEE-754 binary64, as Rocq's primitive floats; it is
      what the program computes with, and the instance on which concrete
      runs are evaluated (division by zero, infinities, NaN);
    - [Q_arith]: exact rationals, the "real" numbers of the specification's
      data model; order properties of the trace are proved on it.
    Properties that do not depend on the arithmetic are proved for every
    instance.

    The pseudo-random generator of NumPy is not part of the program: its
    state type, its seeding function and its standard-exponential sampler are
    parameters of the embedding. *)

From Stdlib Require Import ZArith QArith Floats Lia Lqa.
From stdpp Require Import base list strings.

(** ** The arithmetic of the program *)

Class Arith (F : Type) := {
  f_zero : F;
  f_add : F → F → F;
  f_sub : F → F → F;
  f_mul : F → F → F;
  f_div : F → F → F;
  (** [f_ltb a b] is the comparison [a < b] (Python's [b > a]) *)
  f_ltb : F → F → bool;
  f_eqb : F → F → bool;
  (** conversion of a Python [int] *)
  f_of_Z : Z → F
}.

#[global] Instance Q_arith : Arith Q := {|
  f_zero := 0%Q;
  f_add := Qplus;
  f_sub := Qminus;
  f_mul := Qmult;
  f_div := Qdiv;
  f_ltb := λ a b, negb (Qle_bool b a);
  f_eqb := Qeq_bool;
  f_of_Z := inject_Z
|}.

#[global] Instance float_arith : Arith float := {|
  f_zero := 0%float;
  f_add := PrimFloat.add;
  f_sub := PrimFloat.sub;
  f_mul := PrimFloat.mul;
  f_div := PrimFloat.div;
  f_ltb := PrimFloat.ltb;
  f_eqb := PrimFloat.eqb;
  f_of_Z := λ z, SF2Prim (binary_normalize prec emax z 0 false)
|}.

(** ** Python exceptions

    An exception is identified by the name of its class. *)

Definition exn := string.

Inductive result (A : Type) : Type :=
  | Ok (a : A)
  | Raise (e : exn).
Arguments Ok {A} a.
Arguments Raise {A} e.

#[global] Instance result_ret : MRet result := λ A a, Ok a.
#[global] Instance result_bind : MBind result := λ A B f m,
  match m with
  | Ok a => f a
  | Raise e => Raise e
  end.

(** ** Python and NumPy primitives used by [app.py] *)

Section Primitives.
Context {F : Type} `{Arith F}.

(** The index of [l[i]]: a negative [i] counts from the end. *)
Definition resolve_index {A} (l : list A) (i : Z) : result nat :=
  let n := Z.of_nat (length l) in
  let j := if (i <? 0)%Z then (i + n)%Z else i in
  if ((j <? 0)%Z || (n <=? j)%Z)%bool then Raise "IndexError" else Ok (Z.to_nat j).

(** [l[i]] *)
Definition getitem {A} (l : list A) (i : Z) : result A :=
  j ← resolve_index l i;
  match l !! j with
  | Some x => Ok x
  | None => Raise "IndexError"
  end.

(** [l[i] = x] *)
Definition setitem {A} (l : list A) (i : Z) (x : A) : result (list A) :=
  j ← resolve_index l i;
  Ok (<[j:=x]> l).

(** [range(a, b)] *)
Definition py_range (a b : Z) : list Z :=
  (λ k, (a + Z.of_nat k)%Z) <$> seq 0 (Z.to_nat (b - a)).

(** [for i in indices: s = body(i, s)] *)
Fixpoint for_each {S} (indices : list Z) (body : Z → S → result S) (s : S) : result S :=
  match indices with
  | [] => Ok s
  | i :: rest => s' ← body i s; for_each rest body s'
  end.

(** The builtin [max(a, b)]: [b] replaces [a] when [b > a]. *)
Definition py_max (a b : F) : F := if f_ltb a b then b else a.

(** [x / y] on Python floats *)
Definition py_div (x y : F) : result F :=
  if f_eqb y f_zero then Raise "ZeroDivisionError" else Ok (f_div x y).

(** [np.zeros(n)] *)
Definition np_zeros (n : Z) : result (list F) :=
  if (n <? 0)%Z then Raise "ValueError" else Ok (replicate (Z.to_nat n) f_zero).

(** [np.cumsum(l)]: the first element is copied, every next one is added
    to the running total. *)
Fixpoint cumsum_from (acc : F) (l : list F) : list F :=
  match l with
  | [] => []
  | x :: l' => let acc' := f_add acc x in acc' :: cumsum_from acc' l'
  end.

Definition np_cumsum (l : list F) : list F :=
  match l with
  | [] => []
  | x :: l' => x :: cumsum_from x l'
  end.

(** [np.sum(l)], as the sum from the left starting at zero (the order in
    which NumPy adds is immaterial in exact arithmetic). *)
Definition np_sum (l : list F) : F := foldl f_add f_zero l.

(** [np.mean(l)]: the sum over the number of elements; no exception on
    an empty array. *)
Definition np_mean (l : list F) : F :=
  f_div (np_sum l) (f_of_Z (Z.of_nat (length l))).

End Primitives.

(** ** The queue trace (lines 33-46) *)

Record trace (F : Type) : Type := Trace {
  start_times : list F;
  end_times : list F;
  wait_times : list F;
  turnaround_times : list F
}.
Arguments Trace {F}.
Arguments start_times {F}.
Arguments end_times {F}.
Arguments wait_times {F}.
Arguments turnaround_times {F}.

Record metrics (F : Type) : Type := Metrics {
  avg_wait : F;
  avg_turnaround : F;
  utilization : F;
  throughput : F
}.
Arguments Metrics {F}.
Arguments avg_wait {F}.
Arguments avg_turnaround {F}.
Arguments utilization {F}.
Arguments throughput {F}.

Section Simulation.
Context {F : Type} `{Arith F}.

(** The body of the loop of lines 42-46. *)
Definition simulate_step (arrival_times service_times : list F)
    (i : Z) (t : trace F) : result (trace F) :=
  a ← getitem arrival_times i;
  e ← getitem (end_times t) (i - 1);
  start_times' ← setitem (start_times t) i (py_max a e);
  s ← getitem start_times' i;
  sv ← getitem service_times i;
  end_times' ← setitem (end_times t) i (f_add s sv);
  s' ← getitem start_times' i;
  a' ← getitem arrival_times i;
  wait_times' ← setitem (wait_times t) i (f_sub s' a');
  e' ← getitem end_times' i;
  a'' ← getitem arrival_times i;
  turnaround_times' ← setitem (turnaround_times t) i (f_sub e' a'');
  Ok (Trace start_times' end_times' wait_times' turnaround_times').

(** Lines 33-46: the arrival times and the trace. *)
Definition simulate_queue (num_customers : Z)
    (inter_arrival_times service_times : list F) : result (list F * trace F) :=
  let arrival_times := np_cumsum inter_arrival_times in
  start_times0 ← np_zeros num_customers;
  end_times0 ← np_zeros num_customers;
  wait_times0 ← np_zeros num_customers;
  turnaround_times0 ← np_zeros num_customers;
  t ← for_each (py_range 1 num_customers)
        (simulate_step arrival_times service_times)
        (Trace start_times0 end_times0 wait_times0 turnaround_times0);
  Ok (arrival_times, t).

(** The metrics (lines 49-52). *)
Definition compute_metrics (num_customers : Z) (service_times : list F)
    (t : trace F) : result (metrics F) :=
  let avg_wait := np_mean (wait_times t) in
  let avg_turnaround := np_mean (turnaround_times t) in
  e ← getitem (end_times t) (-1);
  let utilization := f_div (np_sum service_times) e in
  e' ← getitem (end_times t) (-1);
  let throughput := f_div (f_of_Z num_customers) e' in
  Ok (Metrics avg_wait avg_turnaround utilization throughput).

End Simulation.

(** ** The random draws (lines 26-30)

    [np.random] keeps one generator for the whole process.  Its state is
    threaded through the run: a computation takes the state of the generator
    and gives a result or an exception, and the state it leaves. *)

Definition M (G A : Type) : Type := G → result A * G.

#[global] Instance M_ret {G} : MRet (M G) := λ A a g, (Ok a, g).
#[global] Instance M_bind {G} : MBind (M G) := λ A B f m g,
  match m g with
  | (Ok a, g') => f a g'
  | (Raise e, g') => (Raise e, g')
  end.

(** A computation that does not touch the generator. *)
Definition lift {G A} (r : result A) : M G A := λ g, (r, g).

Record SimulationResult (F : Type) : Type := Build_SimulationResult {
  inter_arrival_times : list F;
  service_times : list F;
  arrival_times : list F;
  records : trace F;
  summary : metrics F
}.
Arguments Build_SimulationResult {F}.
Arguments inter_arrival_times {F}.
Arguments service_times {F}.
Arguments arrival_times {F}.
Arguments records {F}.
Arguments summary {F}.

Section Run.
Context {F : Type} `{Arith F}.

(** The generator of NumPy: the type of its state, the state that seeding
    with a given integer installs, and one draw from the standard
    exponential distribution, which gives the sample and the next state. *)
Context {rng_state : Type}.
Variable init_by_seed : Z → rng_state.
Variable standard_exponential : rng_state → F * rng_state.

(** [np.random.seed(s)]: the state of the shared generator is replaced;
    a seed outside [0, 2^32) is refused. *)
Definition np_random_seed (s : Z) : M rng_state unit := λ g,
  if ((0 <=? s)%Z && (s <? 2 ^ 32)%Z)%bool then (Ok (), init_by_seed s)
  else (Raise "ValueError", g).

(** [k] successive draws, each scaled. *)
Fixpoint draws (k : nat) (scale : F) (g : rng_state) : list F * rng_state :=
  match k with
  | O => ([], g)
  | S k' =>
      let '(x, g1) := standard_exponential g in
      let '(xs, g2) := draws k' scale g1 in
      (f_mul scale x :: xs, g2)
  end.

(** [np.random.exponential(scale, size)]: a negative scale or size is
    refused; the draws advance the shared generator. *)
Definition np_random_exponential (scale : F) (size : Z) : M rng_state (list F) := λ g,
  if f_ltb scale f_zero then (Raise "ValueError", g)
  else if (size <? 0)%Z then (Raise "ValueError", g)
  else let '(xs, g') := draws (Z.to_nat size) scale g in (Ok xs, g').

(** Lines 26-52. *)
Definition run_simulation (arrival_rate service_rate : F)
    (num_customers random_seed : Z) : M rng_state (SimulationResult F) :=
  _ ← np_random_seed random_seed;
  scale_a ← lift (py_div (f_of_Z 1) arrival_rate);
  inter_arrival_times ← np_random_exponential scale_a num_customers;
  scale_s ← lift (py_div (f_of_Z 1) service_rate);
  service_times ← np_random_exponential scale_s num_customers;
  '(arrival_times, t) ← lift (simulate_queue num_customers inter_arrival_times service_times);
  m ← lift (compute_metrics num_customers service_times t);
  mret (Build_SimulationResult inter_arrival_times service_times arrival_times t m).

End Run.

(** ** A generator to run the program on

    A counter: seeding installs the seed, a draw gives the counter as the
    sample and increments it. *)

Definition counter_seed (s : Z) : Z := s.
Definition counter_draw {F} `{Arith F} (g : Z) : F * Z := (f_of_Z (g + 1), (g + 1)%Z).

(** ** Statements about the trace

    [recurrence_at arrival service t i]: record [i] of the trace [t] is
    derived from its arrival time, its service time and the end time of
    record [i - 1] by the recurrence of the loop. *)

Definition recurrence_at {F} `{Arith F} (arrival service : list F) (t : trace F)
    (i : nat) : Prop :=
  ∃ a e s,
    arrival !! i = Some a ∧ end_times t !! (i - 1) = Some e ∧ service !! i = Some s ∧
    start_times t !! i = Some (py_max a e) ∧
    end_times t !! i = Some (f_add (py_max a e) s) ∧
    wait_times t !! i = Some (f_sub (py_max a e) a) ∧
    turnaround_times t !! i = Some (f_sub (f_add (py_max a e) s) a).

(** Record [i] of the trace is all zeros. *)
Definition zero_at {F} `{Arith F} (t : trace F) (i : nat) : Prop :=
  start_times t !! i = Some f_zero ∧ end_times t !! i = Some f_zero ∧
  wait_times t !! i = Some f_zero ∧ turnaround_times t !! i = Some f_zero.

(** The four arrays of the trace have length [n]. *)
Definition trace_length {F} (t : trace F) (n : nat) : Prop :=
  length (start_times t) = n ∧ length (end_times t) = n ∧
  length (wait_times t) = n ∧ length (turnaround_times t) = n.

(** What the loop has established before it handles index [k]: records
    [1 .. k-1] follow the recurrence, every other record is still zero. *)
Definition trace_inv {F} `{Arith F} (arrival service : list F) (n k : nat)
    (t : trace F) : Prop :=
  trace_length t n ∧
  (∀ j, j < n → j = 0 ∨ k ≤ j → zero_at t j) ∧
  (∀ j, 1 ≤ j < k → recurrence_at arrival service t j).

(** ** Statements about the metrics

    The sum of the specification, [x 0 + x 1 + ... + x (n-1)], over the
    entries of an array. *)

Fixpoint sigma {F} `{Arith F} (n : nat) (x : nat → F) : F :=
  match n with
  | O => f_zero
  | S k => f_add (sigma k x) (x k)
  end.

Definition entry {F} `{Arith F} (l : list F) (i : nat) : F := default f_zero (l !! i).

(** ** The Gantt chart (lines 63-66)

    What the chart receives: a segment [ax.plot([x0, x1], [y0, y1])] or a
    marker [ax.scatter(x, y)]. *)

Inductive artist (F : Type) : Type :=
  | Plot (x0 x1 : F) (y0 y1 : Z)
  | Scatter (x : F) (y : Z).
Arguments Plot {F}.
Arguments Scatter {F}.

(** The builtin [min(a, b)] on integers: [b] replaces [a] when [b < a]. *)
Definition py_min (a b : Z) : Z := if (b <? a)%Z then b else a.

(** The body of the loop of lines 64-66. *)
Definition gantt_step {F} (arrival_times : list F) (t : trace F)
    (i : Z) (drawn : list (artist F)) : result (list (artist F)) :=
  s ← getitem (start_times t) i;
  e ← getitem (end_times t) i;
  let drawn' := drawn ++ [Plot s e i i] in
  a ← getitem arrival_times i;
  Ok (drawn' ++ [Scatter a i]).

(** Lines 64-66: the service segment and the arrival marker of each of the
    first [min(100, num_customers)] customers. *)
Definition gantt_chart {F} (num_customers : Z) (arrival_times : list F)
    (t : trace F) : result (list (artist F)) :=
  for_each (py_range 0 (py_min 100 num_customers)) (gantt_step arrival_times t) [].

(** What the chart shows of customer [i]: the segment from its start to its
    end, then the marker of its arrival, both at height [i]. *)
Definition drawn_at {F} (arrival : list F) (t : trace F) (drawn : list (artist F))
    (i : nat) : Prop :=
  ∃ s e a,
    start_times t !! i = Some s ∧ end_times t !! i = Some e ∧ arrival !! i = Some a
    ∧ drawn !! (2 * i) = Some (Plot s e (Z.of_nat i) (Z.of_nat i))
    ∧ drawn !! (2 * i + 1) = Some (Scatter a (Z.of_nat i)).

(** ** The sliders (lines 17-20)

    The values the four widgets can deliver: both rates in [0.1, 10.0], the
    number of customers in [100, 2000], the seed in [0, 9999]. *)

Definition slider_values (arrival_rate service_rate : float)
    (num_customers random_seed : Z) : Prop :=
  PrimFloat.leb 0x1.999999999999ap-4%float arrival_rate = true
  ∧ PrimFloat.leb arrival_rate 10%float = true
  ∧ PrimFloat.leb 0x1.999999999999ap-4%float service_rate = true
  ∧ PrimFloat.leb service_rate 10%float = true
  ∧ (100 ≤ num_customers ≤ 2000)%Z
  ∧ (0 ≤ random_seed ≤ 9999)%Z.

(** ** Statements about the generator

    The first [k] samples of the generator from the state [g], unscaled, and
    the state after them. *)

Fixpoint samples {F G} (standard_exponential : G → F * G) (k : nat) (g : G)
    : list F * G :=
  match k with
  | O => ([], g)
  | S k' =>
      let '(x, g1) := standard_exponential g in
      let '(xs, g2) := samples standard_exponential k' g1 in
      (x :: xs, g2)
  end.

(** * Proofs *)

(** ** Indexing *)

Ltac index_cases :=
  unfold resolve_index; cbv zeta;
  repeat match goal with
    | |- context [(?a <? ?b)%Z] => destruct (Z.ltb_spec a b)
    | |- context [(?a <=? ?b)%Z] => destruct (Z.leb_spec a b)
    end;
  cbn [orb]; try done; try lia.

(** Closes a branch of a run in which an exception has been raised. *)
Ltac raised :=
  subst; eexists _, _; split; [reflexivity|]; auto.

Section IndexFacts.
Context {A : Type}.
Implicit Types (l : list A) (i : nat).

Lemma resolve_index_nat l i :
  i < length l → resolve_index l (Z.of_nat i) = Ok i.
Proof. intros Hi. index_cases. f_equal. lia. Qed.

Lemma resolve_index_last l :
  0 < length l → resolve_index l (-1) = Ok (length l - 1).
Proof. intros Hl. index_cases. f_equal. lia. Qed.

Lemma resolve_index_nil (i : Z) : resolve_index (@nil A) i = Raise "IndexError".
Proof. index_cases; cbn [length] in *; lia. Qed.

Lemma getitem_nat l i x : l !! i = Some x → getitem l (Z.of_nat i) = Ok x.
Proof.
  intros Hx. unfold getitem.
  rewrite resolve_index_nat by (by eapply lookup_lt_Some).
  cbn. by rewrite Hx.
Qed.

Lemma getitem_pred l i x :
  1 ≤ i → l !! (i - 1) = Some x → getitem l (Z.of_nat i - 1) = Ok x.
Proof.
  intros Hi Hx. replace (Z.of_nat i - 1)%Z with (Z.of_nat (i - 1)) by lia.
  by apply getitem_nat.
Qed.

Lemma getitem_last l x :
  l !! (length l - 1) = Some x → getitem l (-1) = Ok x.
Proof.
  intros Hx. unfold getitem.
  rewrite resolve_index_last.
  - cbn. by rewrite Hx.
  - apply lookup_lt_Some in Hx. lia.
Qed.

Lemma getitem_nil (i : Z) : getitem (@nil A) i = Raise "IndexError".
Proof. unfold getitem. by rewrite resolve_index_nil. Qed.

Lemma setitem_nat l i x :
  i < length l → setitem l (Z.of_nat i) x = Ok (<[i:=x]> l).
Proof. intros Hi. unfold setitem. by rewrite resolve_index_nat. Qed.

Lemma py_range_from_1 (n : nat) :
  py_range 1 (Z.of_nat n) = Z.of_nat <$> seq 1 (n - 1).
Proof.
  unfold py_range.
  replace (Z.to_nat (Z.of_nat n - 1)) with (n - 1) by lia.
  rewrite <- fmap_S_seq, <- list_fmap_compose.
  apply list_fmap_ext. intros _ k _. cbn. lia.
Qed.

End IndexFacts.

(** ** The loop of the queue trace *)

Section TraceFacts.
Context {F : Type} `{Arith F}.
Implicit Types (t : trace F) (arrival service : list F).

Lemma simulate_step_ok arrival service t n k a e s :
  1 ≤ k < n → trace_length t n →
  arrival !! k = Some a → end_times t !! (k - 1) = Some e → service !! k = Some s →
  simulate_step arrival service (Z.of_nat k) t =
    Ok (Trace (<[k:=py_max a e]> (start_times t))
              (<[k:=f_add (py_max a e) s]> (end_times t))
              (<[k:=f_sub (py_max a e) a]> (wait_times t))
              (<[k:=f_sub (f_add (py_max a e) s) a]> (turnaround_times t))).
Proof.
  intros Hk (Hs & He & Hw & Ht) Ha Hprev Hsv. unfold simulate_step.
  rewrite (getitem_nat _ _ _ Ha). cbn.
  rewrite (getitem_pred _ _ _ (proj1 Hk) Hprev). cbn.
  rewrite setitem_nat by lia. cbn.
  rewrite (getitem_nat _ k (py_max a e)) by (apply list_lookup_insert_eq; lia). cbn.
  rewrite (getitem_nat _ _ _ Hsv). cbn.
  rewrite setitem_nat by lia. cbn.
  rewrite setitem_nat by lia. cbn.
  rewrite (getitem_nat _ k (f_add (py_max a e) s)) by (apply list_lookup_insert_eq; lia). cbn.
  rewrite setitem_nat by lia. done.
Qed.

Lemma trace_inv_init arrival service (n : nat) :
  trace_inv arrival service n 1
    (Trace (replicate n f_zero) (replicate n f_zero)
           (replicate n f_zero) (replicate n f_zero)).
Proof.
  split; [|split].
  - repeat split; cbn; apply length_replicate.
  - intros j Hj _. repeat split; cbn; by apply lookup_replicate_2.
  - intros j Hj. lia.
Qed.

Lemma trace_inv_step arrival service n k t a e s :
  1 ≤ k < n → trace_inv arrival service n k t →
  arrival !! k = Some a → end_times t !! (k - 1) = Some e → service !! k = Some s →
  trace_inv arrival service n (S k)
    (Trace (<[k:=py_max a e]> (start_times t))
           (<[k:=f_add (py_max a e) s]> (end_times t))
           (<[k:=f_sub (py_max a e) a]> (wait_times t))
           (<[k:=f_sub (f_add (py_max a e) s) a]> (turnaround_times t))).
Proof.
  intros Hk ((Hs & He & Hw & Ht) & Hzero & Hrec) Ha Hprev Hsv.
  split; [|split].
  - repeat split; cbn; rewrite length_insert; done.
  - intros j Hj Hjk.
    destruct (Hzero j Hj) as (Z1 & Z2 & Z3 & Z4); [lia|].
    repeat split; cbn; rewrite list_lookup_insert_ne by lia; done.
  - intros j Hj. destruct (decide (j = k)) as [->|Hne].
    + exists a, e, s. cbn.
      rewrite !list_lookup_insert_eq by lia.
      rewrite list_lookup_insert_ne by lia. done.
    + destruct (Hrec j) as (a' & e' & s' & R1 & R2 & R3 & R4 & R5 & R6 & R7); [lia|].
      exists a', e', s'. cbn.
      rewrite !list_lookup_insert_ne by lia. done.
Qed.

Lemma for_each_trace arrival service (n : nat) :
  length arrival = n → length service = n →
  ∀ (m k : nat) t, 1 ≤ k → k + m = Nat.max n 1 →
    trace_inv arrival service n k t →
    ∃ t', for_each (Z.of_nat <$> seq k m) (simulate_step arrival service) t = Ok t'
          ∧ trace_inv arrival service n (k + m) t'.
Proof.
  intros Harr Hsv. induction m as [|m IH]; intros k t Hk Hkm Hinv.
  - exists t. rewrite Nat.add_0_r. done.
  - assert (k < n) as Hkn by lia.
    destruct (lookup_lt_is_Some_2 arrival k) as [a Ha]; [lia|].
    destruct (lookup_lt_is_Some_2 service k) as [s Hs]; [lia|].
    destruct Hinv as (Hlen & Hzero & Hrec).
    destruct (lookup_lt_is_Some_2 (end_times t) (k - 1)) as [e He].
    { destruct Hlen as (_ & -> & _). lia. }
    cbn [seq fmap list_fmap for_each].
    rewrite (simulate_step_ok arrival service t n k a e s) by (done || lia). cbn.
    destruct (IH (S k) _ ltac:(lia) ltac:(lia)
                (trace_inv_step arrival service n k t a e s ltac:(lia)
                   (conj Hlen (conj Hzero Hrec)) Ha He Hs))
      as (t' & Hrun & Hinv').
    exists t'. split; [done|]. by replace (k + S m) with (S k + m) by lia.
Qed.

Lemma length_cumsum_from (acc : F) (l : list F) :
  length (cumsum_from acc l) = length l.
Proof. revert acc. induction l as [|x l IH]; intros acc; cbn; [done|]. by rewrite IH. Qed.

Lemma length_np_cumsum (l : list F) : length (np_cumsum l) = length l.
Proof. destruct l as [|x l]; cbn; [done|]. by rewrite length_cumsum_from. Qed.

(** The whole of lines 33-46, for arrays of the length the program gives
    them. *)
Lemma simulate_queue_inv (inter_arrival service : list F) (n : nat) :
  length inter_arrival = n → length service = n →
  ∃ t, simulate_queue (Z.of_nat n) inter_arrival service
         = Ok (np_cumsum inter_arrival, t)
       ∧ trace_inv (np_cumsum inter_arrival) service n (Nat.max n 1) t.
Proof.
  intros Hia Hsv. unfold simulate_queue, np_zeros.
  destruct (Z.ltb_spec (Z.of_nat n) 0) as [?|_]; [lia|]. cbn.
  rewrite Nat2Z.id, py_range_from_1.
  assert (length (np_cumsum inter_arrival) = n) as Harr
    by (by rewrite length_np_cumsum).
  destruct (for_each_trace (np_cumsum inter_arrival) service n Harr Hsv
              (n - 1) 1 _ ltac:(lia) ltac:(lia)
              (trace_inv_init (np_cumsum inter_arrival) service n))
    as (t & Hrun & Hinv).
  exists t. rewrite Hrun. cbn. split; [done|].
  by replace (Nat.max n 1) with (1 + (n - 1)) by lia.
Qed.

End TraceFacts.

(** ** The cumulative sum *)

Section CumsumFacts.
Context {F : Type} `{Arith F}.
Implicit Types (l : list F).

Lemma cumsum_from_head (acc : F) l :
  cumsum_from acc l !! 0 = f_add acc <$> l !! 0.
Proof. by destruct l. Qed.

Lemma cumsum_from_next (acc : F) l i x :
  l !! S i = Some x →
  ∃ a, cumsum_from acc l !! i = Some a ∧ cumsum_from acc l !! S i = Some (f_add a x).
Proof.
  revert acc i. induction l as [|y l IH]; intros acc i Hx; [done|].
  change (l !! i = Some x) in Hx. destruct i as [|i].
  - exists (f_add acc y). split; [done|].
    change (cumsum_from (f_add acc y) l !! 0 = Some (f_add (f_add acc y) x)).
    by rewrite cumsum_from_head, Hx.
  - by apply (IH (f_add acc y)).
Qed.

Lemma np_cumsum_head l : np_cumsum l !! 0 = l !! 0.
Proof. by destruct l. Qed.

Lemma np_cumsum_next l i x :
  1 ≤ i → l !! i = Some x →
  ∃ a, np_cumsum l !! (i - 1) = Some a ∧ np_cumsum l !! i = Some (f_add a x).
Proof.
  intros Hi Hx. destruct l as [|y l]; [done|].
  destruct i as [|[|i]]; [lia| |].
  - exists y. split; [done|].
    change (cumsum_from y l !! 0 = Some (f_add y x)).
    change (l !! 0 = Some x) in Hx.
    by rewrite cumsum_from_head, Hx.
  - change (l !! S i = Some x) in Hx.
    destruct (cumsum_from_next y l i x Hx) as (a & Ha & Hnext).
    exists a. split; [|done].
    by replace (S (S i) - 1) with (S i) by lia.
Qed.

End CumsumFacts.

(** ** Order on the exact instance *)

Section OrderFacts.
Open Scope Q_scope.

Lemma Q_ltb_true (a b : Q) : f_ltb a b = true → a < b.
Proof.
  cbn. intros Hlt. apply Qnot_le_lt. intros Hle.
  apply Qle_bool_iff in Hle. rewrite Hle in Hlt. done.
Qed.

Lemma Q_ltb_false (a b : Q) : f_ltb a b = false → b <= a.
Proof.
  cbn. intros Hlt. apply Qle_bool_iff.
  destruct (Qle_bool b a); done.
Qed.

Lemma py_max_ge_l (a b : Q) : a <= py_max a b.
Proof.
  unfold py_max. destruct (f_ltb a b) eqn:E.
  - apply Qlt_le_weak. by apply Q_ltb_true.
  - apply Qle_refl.
Qed.

Lemma py_max_ge_r (a b : Q) : b <= py_max a b.
Proof.
  unfold py_max. destruct (f_ltb a b) eqn:E.
  - apply Qle_refl.
  - by apply Q_ltb_false.
Qed.

Lemma np_cumsum_le_next (l : list Q) i a b :
  Forall (λ x, 0 <= x) l →
  np_cumsum l !! i = Some a → np_cumsum l !! S i = Some b → a <= b.
Proof.
  intros Hpos Ha Hb.
  assert (S i < length l)%nat as Hlt.
  { rewrite <- length_np_cumsum. by eapply lookup_lt_Some. }
  destruct (lookup_lt_is_Some_2 l (S i) Hlt) as [x Hx].
  destruct (np_cumsum_next l (S i) x ltac:(lia) Hx) as (a' & Ha' & Hb').
  cbn in Ha'. rewrite Nat.sub_0_r in Ha'.
  assert (a' = a) as -> by congruence.
  assert (b = f_add a x) as -> by congruence.
  assert (0 <= x) as Hx0.
  { rewrite Forall_forall in Hpos. apply Hpos. by eapply list_elem_of_lookup_2. }
  cbn. lra.
Qed.

Lemma np_cumsum_mono (l : list Q) :
  Forall (λ x, 0 <= x) l →
  ∀ d i a b, np_cumsum l !! i = Some a → np_cumsum l !! (i + d)%nat = Some b → a <= b.
Proof.
  intros Hpos. induction d as [|d IH]; intros i a b Ha Hb.
  - rewrite Nat.add_0_r in Hb. assert (a = b) as -> by congruence. apply Qle_refl.
  - assert (is_Some (np_cumsum l !! (i + d)%nat)) as [c Hc].
    { apply lookup_lt_is_Some. apply lookup_lt_Some in Hb. lia. }
    apply Qle_trans with c; [by eapply IH|].
    eapply np_cumsum_le_next; [done|exact Hc|].
    by replace (S (i + d)) with (i + S d)%nat by lia.
Qed.

End OrderFacts.

(** * The queue trace simulator *)

(** C1: for [inter_arrival_times] and [service_times] both of length [n],
    the simulator returns the trace (it raises nothing); the loop visits
    [i = 1, ..., n-1] in increasing order; every record [i] of that range has
    [start_time[i] = max(arrival_time[i], end_time[i-1])],
    [end_time[i] = start_time[i] + service_time[i]],
    [wait_time[i] = start_time[i] - arrival_time[i]] and
    [turnaround_time[i] = end_time[i] - arrival_time[i]]; and record 0 keeps
    the zeros of its initialisation.  This holds in every arithmetic, so in
    binary64 as well. *)
Theorem queue_trace_recurrence {F} `{Arith F} (inter_arrival service : list F) (n : nat) :
  length inter_arrival = n → length service = n →
  ∃ t, simulate_queue (Z.of_nat n) inter_arrival service
         = Ok (np_cumsum inter_arrival, t)
       ∧ py_range 1 (Z.of_nat n) = Z.of_nat <$> seq 1 (n - 1)
       ∧ trace_length t n
       ∧ (0 < n → zero_at t 0)
       ∧ ∀ i, 1 ≤ i < n → recurrence_at (np_cumsum inter_arrival) service t i.
Proof.
  intros Hia Hsv.
  destruct (simulate_queue_inv inter_arrival service n Hia Hsv)
    as (t & Hrun & Hlen & Hzero & Hrec).
  exists t. split; [done|]. split; [apply py_range_from_1|].
  split; [done|]. split.
  - intros Hn. apply Hzero; [done|by left].
  - intros i Hi. apply Hrec. lia.
Qed.

Lemma queue_trace_recurrence_witness :
  ∃ t, simulate_queue (F:=Q) 3 [1 # 2; 1 # 4; 1]%Q [3 # 10; 1 # 5; 1 # 10]%Q
         = Ok (np_cumsum [1 # 2; 1 # 4; 1]%Q, t)
       ∧ py_range 1 3 = Z.of_nat <$> seq 1 (3 - 1)
       ∧ trace_length t 3
       ∧ (0 < 3 → zero_at t 0)
       ∧ ∀ i, 1 ≤ i < 3 →
           recurrence_at (np_cumsum [1 # 2; 1 # 4; 1]%Q) [3 # 10; 1 # 5; 1 # 10]%Q t i.
Proof.
  apply (queue_trace_recurrence (F:=Q) [1 # 2; 1 # 4; 1]%Q [3 # 10; 1 # 5; 1 # 10]%Q 3);
    reflexivity.
Defined.

(** C7: for non-negative inter-arrival times, [arrival_time[0]] is
    [inter_arrival_times[0]], [arrival_time[i]] is
    [arrival_time[i-1] + inter_arrival_time[i]] for every [i >= 1], and the
    arrival times are non-decreasing in the index (exact arithmetic). *)
Theorem arrival_times_cumulative (inter_arrival : list Q) :
  Forall (λ x, (0 <= x)%Q) inter_arrival →
  length (np_cumsum inter_arrival) = length inter_arrival
  ∧ np_cumsum inter_arrival !! 0 = inter_arrival !! 0
  ∧ (∀ i x, 1 ≤ i → inter_arrival !! i = Some x →
       ∃ a, np_cumsum inter_arrival !! (i - 1) = Some a
            ∧ np_cumsum inter_arrival !! i = Some (a + x)%Q)
  ∧ (∀ i j a b, i ≤ j →
       np_cumsum inter_arrival !! i = Some a → np_cumsum inter_arrival !! j = Some b →
       (a <= b)%Q).
Proof.
  intros Hpos. split; [apply length_np_cumsum|]. split; [apply np_cumsum_head|]. split.
  - intros i x Hi Hx. exact (np_cumsum_next inter_arrival i x Hi Hx).
  - intros i j a b Hij Ha Hb.
    apply (np_cumsum_mono inter_arrival Hpos (j - i) i a b Ha).
    by replace (i + (j - i)) with j by lia.
Qed.

Lemma arrival_times_cumulative_witness :
  length (np_cumsum [1 # 2; 0; 3 # 4]%Q) = length [1 # 2; 0; 3 # 4]%Q
  ∧ np_cumsum [1 # 2; 0; 3 # 4]%Q !! 0 = [1 # 2; 0; 3 # 4]%Q !! 0
  ∧ (∀ i x, 1 ≤ i → [1 # 2; 0; 3 # 4]%Q !! i = Some x →
       ∃ a, np_cumsum [1 # 2; 0; 3 # 4]%Q !! (i - 1) = Some a
            ∧ np_cumsum [1 # 2; 0; 3 # 4]%Q !! i = Some (a + x)%Q)
  ∧ (∀ i j a b, i ≤ j →
       np_cumsum [1 # 2; 0; 3 # 4]%Q !! i = Some a →
       np_cumsum [1 # 2; 0; 3 # 4]%Q !! j = Some b →
       (a <= b)%Q).
Proof.
  apply (arrival_times_cumulative [1 # 2; 0; 3 # 4]%Q).
  repeat constructor; vm_compute; discriminate.
Defined.





(** * The metrics engine *)

Section MetricsFacts.
Context {F : Type} `{Arith F}.
Implicit Types (l service : list F) (t : trace F).

Lemma sigma_ext (n : nat) (x y : nat → F) :
  (∀ i, i < n → x i = y i) → sigma n x = sigma n y.
Proof.
  induction n as [|n IH]; intros Hxy; cbn; [done|].
  rewrite IH by (intros i Hi; apply Hxy; lia).
  by rewrite Hxy by lia.
Qed.

Lemma np_sum_snoc l (x : F) : np_sum (l ++ [x]) = f_add (np_sum l) x.
Proof. unfold np_sum. by rewrite foldl_app. Qed.

(** The sum of NumPy is the sum over all the entries, the first one
    included. *)
Lemma np_sum_sigma l : np_sum l = sigma (length l) (entry l).
Proof.
  induction l as [|x l IH] using rev_ind; [done|].
  rewrite np_sum_snoc, length_app, Nat.add_1_r. cbn [sigma]. f_equal.
  - rewrite IH. apply sigma_ext. intros i Hi.
    unfold entry. by rewrite lookup_app_l.
  - unfold entry. by rewrite list_lookup_middle.
Qed.

Lemma np_mean_sigma l :
  np_mean l = f_div (sigma (length l) (entry l)) (f_of_Z (Z.of_nat (length l))).
Proof. unfold np_mean. by rewrite np_sum_sigma. Qed.

(** The metrics of a trace that has a last record. *)
Lemma compute_metrics_ok (num_customers : Z) service t (e_last : F) :
  end_times t !! (length (end_times t) - 1) = Some e_last →
  compute_metrics num_customers service t =
    Ok (Metrics (np_mean (wait_times t)) (np_mean (turnaround_times t))
                (f_div (np_sum service) e_last)
                (f_div (f_of_Z num_customers) e_last)).
Proof.
  intros He. unfold compute_metrics.
  rewrite (getitem_last _ _ He). done.
Qed.

End MetricsFacts.



(** * The whole run *)

Section RunFacts.
Context {F : Type} `{Arith F} {G : Type}.
Variable init_by_seed : Z → G.
Variable standard_exponential : G → F * G.

Lemma M_bind_inv {A B} (m : M G A) (f : A → M G B) (g g' : G) (b : B) :
  (m ≫= f) g = (Ok b, g') → ∃ a g1, m g = (Ok a, g1) ∧ f a g1 = (Ok b, g').
Proof.
  unfold mbind, M_bind. destruct (m g) as [[a|e] g1]; [eauto|done].
Qed.

Lemma lift_inv {A} (r : result A) (g g' : G) (a : A) :
  lift r g = (Ok a, g') → r = Ok a ∧ g' = g.
Proof. unfold lift. by intros [= -> ->]. Qed.

Lemma np_random_seed_inv (s : Z) (g g' : G) (u : unit) :
  np_random_seed init_by_seed s g = (Ok u, g') →
  (0 ≤ s < 2 ^ 32)%Z ∧ g' = init_by_seed s.
Proof.
  unfold np_random_seed.
  destruct (Z.leb_spec 0 s), (Z.ltb_spec s (2 ^ 32)); cbn; intros [= <-]; try done.
Qed.

Lemma np_random_exponential_inv (scale : F) (size : Z) (g g' : G) (xs : list F) :
  np_random_exponential standard_exponential scale size g = (Ok xs, g') →
  f_ltb scale f_zero = false ∧ (0 ≤ size)%Z
  ∧ draws standard_exponential (Z.to_nat size) scale g = (xs, g').
Proof.
  unfold np_random_exponential.
  destruct (f_ltb scale f_zero); [done|].
  destruct (Z.ltb_spec size 0); [done|].
  destruct (draws standard_exponential (Z.to_nat size) scale g) as [ys g2].
  by intros [= -> ->].
Qed.

Lemma length_draws (k : nat) (scale : F) (g : G) :
  length (draws standard_exponential k scale g).1 = k.
Proof.
  revert g. induction k as [|k IH]; intros g; cbn; [done|].
  destruct (standard_exponential g) as [x g1]. specialize (IH g1).
  destruct (draws standard_exponential k scale g1) as [xs g2]. cbn in *. by rewrite IH.
Qed.

(** What a run that returns has done, step by step. *)
Lemma run_simulation_inv (arrival_rate service_rate : F) (num_customers random_seed : Z)
    (g g' : G) (r : SimulationResult F) :
  run_simulation init_by_seed standard_exponential
    arrival_rate service_rate num_customers random_seed g = (Ok r, g') →
  ∃ scale_a scale_s g1,
    (0 ≤ random_seed < 2 ^ 32)%Z ∧ (0 ≤ num_customers)%Z
    ∧ py_div (f_of_Z 1) arrival_rate = Ok scale_a
    ∧ py_div (f_of_Z 1) service_rate = Ok scale_s
    ∧ draws standard_exponential (Z.to_nat num_customers) scale_a
        (init_by_seed random_seed) = (inter_arrival_times r, g1)
    ∧ draws standard_exponential (Z.to_nat num_customers) scale_s g1
        = (service_times r, g')
    ∧ simulate_queue num_customers (inter_arrival_times r) (service_times r)
        = Ok (arrival_times r, records r)
    ∧ compute_metrics num_customers (service_times r) (records r) = Ok (summary r).
Proof.
  unfold run_simulation. intros Hrun.
  apply M_bind_inv in Hrun as (u & g0 & Hseed & Hrun).
  apply np_random_seed_inv in Hseed as [Hs ->].
  apply M_bind_inv in Hrun as (scale_a & g0 & Ha & Hrun).
  apply lift_inv in Ha as [Ha ->].
  apply M_bind_inv in Hrun as (ia & g1 & Hia & Hrun).
  apply np_random_exponential_inv in Hia as (_ & Hn & Hia).
  apply M_bind_inv in Hrun as (scale_s & g0 & Hb & Hrun).
  apply lift_inv in Hb as [Hb ->].
  apply M_bind_inv in Hrun as (sv & g2 & Hsv & Hrun).
  apply np_random_exponential_inv in Hsv as (_ & _ & Hsv).
  apply M_bind_inv in Hrun as ([arr t] & g0 & Hq & Hrun).
  apply lift_inv in Hq as [Hq ->].
  apply M_bind_inv in Hrun as (m & g0 & Hm & Hrun).
  apply lift_inv in Hm as [Hm ->].
  injection Hrun as <- <-. cbn.
  exists scale_a, scale_s, g1. done.
Qed.

End RunFacts.

(** C9: the run is a function of [(arrival_rate, service_rate,
    customer_count, random_seed)] alone: whatever state earlier runs have
    left in the shared generator, the result (the inter-arrival and service
    times, every record of the trace, the four metrics, or the exception
    raised) is the same; for a seed that NumPy accepts the generator is
    left in the same state as well. *)
Theorem run_simulation_deterministic {F} `{Arith F} {G : Type}
    (init_by_seed : Z → G) (standard_exponential : G → F * G)
    (arrival_rate service_rate : F) (num_customers random_seed : Z) (g1 g2 : G) :
  (run_simulation init_by_seed standard_exponential
     arrival_rate service_rate num_customers random_seed g1).1
  = (run_simulation init_by_seed standard_exponential
       arrival_rate service_rate num_customers random_seed g2).1
  ∧ ((0 ≤ random_seed < 2 ^ 32)%Z →
     run_simulation init_by_seed standard_exponential
       arrival_rate service_rate num_customers random_seed g1
     = run_simulation init_by_seed standard_exponential
         arrival_rate service_rate num_customers random_seed g2).
Proof.
  unfold run_simulation.
  unfold mbind at 1 3 5 7. unfold M_bind at 1 3 5 7. unfold np_random_seed.
  destruct (Z.leb_spec 0 random_seed), (Z.ltb_spec random_seed (2 ^ 32));
    cbn [andb]; split; try done; intros; lia.
Qed.

Lemma run_simulation_deterministic_witness :
  (run_simulation (F:=float) counter_seed counter_draw 2%float 3%float 100 42 0%Z).1
  = (run_simulation (F:=float) counter_seed counter_draw 2%float 3%float 100 42 7%Z).1
  ∧ ((0 ≤ 42 < 2 ^ 32)%Z →
     run_simulation (F:=float) counter_seed counter_draw 2%float 3%float 100 42 0%Z
     = run_simulation (F:=float) counter_seed counter_draw 2%float 3%float 100 42 7%Z).
Proof.
  apply (run_simulation_deterministic (F:=float) counter_seed counter_draw
           2%float 3%float 100 42 0%Z 7%Z).
Defined.

(** C3, as the code has it: the shared generator is seeded once, before the
    first draw.  The inter-arrival times are the first [n] draws from the
    freshly seeded state; the service times are the next [n] draws, from the
    state that the first sequence left, and the run leaves the generator in
    the state after both. *)
Theorem service_times_continue_stream {F} `{Arith F} {G : Type}
    (init_by_seed : Z → G) (standard_exponential : G → F * G)
    (arrival_rate service_rate : F) (num_customers random_seed : Z)
    (g g' : G) (r : SimulationResult F) :
  run_simulation init_by_seed standard_exponential
    arrival_rate service_rate num_customers random_seed g = (Ok r, g') →
  ∃ scale_a scale_s g1,
    py_div (f_of_Z 1) arrival_rate = Ok scale_a
    ∧ py_div (f_of_Z 1) service_rate = Ok scale_s
    ∧ draws standard_exponential (Z.to_nat num_customers) scale_a
        (init_by_seed random_seed) = (inter_arrival_times r, g1)
    ∧ draws standard_exponential (Z.to_nat num_customers) scale_s g1
        = (service_times r, g').
Proof.
  intros Hrun.
  apply run_simulation_inv in Hrun
    as (scale_a & scale_s & g1 & _ & _ & Ha & Hs & Hia & Hsv & _).
  by exists scale_a, scale_s, g1.
Qed.

Lemma service_times_continue_stream_witness :
  ∃ scale_a scale_s g1,
    py_div (f_of_Z 1) 2%float = Ok scale_a
    ∧ py_div (f_of_Z 1) 4%float = Ok scale_s
    ∧ draws counter_draw (Z.to_nat 3) scale_a (counter_seed 42)
      = ([21.5; 22; 22.5]%float, g1)
    ∧ draws counter_draw (Z.to_nat 3) scale_s g1
      = ([11.5; 11.75; 12]%float, 48%Z).
Proof.
  apply (service_times_continue_stream (F:=float) counter_seed counter_draw
           2%float 4%float 3 42 0%Z 48%Z
           (Build_SimulationResult
              [21.5; 22; 22.5]%float
              [11.5; 11.75; 12]%float
              [21.5; 43.5; 66]%float
              (Trace [0; 43.5; 66]%float [0; 55.25; 78]%float
                     [0; 0; 0]%float [0; 11.75; 12]%float)
              (Metrics 0%float (23.75 / 3)%float (35.25 / 78)%float (3 / 78)%float))).
  vm_compute. reflexivity.
Defined.

(** C3, as the specification has it, fails: with the counter generator, the
    defaults of the sliders for the seed and the arrival rate, and 100
    customers, the inter-arrival times are the draws from the freshly seeded
    state, but the service times are not: they are later draws. *)
Lemma service_times_not_reseeded :
  ∃ r g',
    run_simulation (F:=float) counter_seed counter_draw 2%float 4%float 100 42 0%Z
      = (Ok r, g')
    ∧ inter_arrival_times r
      = (draws counter_draw 100 (1 / 2)%float (counter_seed 42)).1
    ∧ service_times r
      ≠ (draws counter_draw 100 (1 / 4)%float (counter_seed 42)).1.
Proof.
  eexists. eexists. split; [vm_compute; reflexivity|].
  split; [vm_compute; reflexivity|].
  intros Heq.
  apply (f_equal (λ l, PrimFloat.eqb (default 0%float (l !! 0)) 35.75%float)) in Heq.
  vm_compute in Heq. discriminate.
Qed.

(** * Parameters outside the ranges of the sliders *)

Section Failures.
Context {F : Type} `{Arith F} {G : Type}.
Variable init_by_seed : Z → G.
Variable standard_exponential : G → F * G.

Lemma M_bind_Ok {A B} (m : M G A) (f : A → M G B) (g g1 : G) (a : A) :
  m g = (Ok a, g1) → (m ≫= f) g = f a g1.
Proof. unfold mbind, M_bind. by intros ->. Qed.

Lemma M_bind_Raise {A B} (m : M G A) (f : A → M G B) (g g1 : G) (e : exn) :
  m g = (Raise e, g1) → (m ≫= f) g = (Raise e, g1).
Proof. unfold mbind, M_bind. by intros ->. Qed.

Lemma np_random_seed_Raise (s : Z) (g g' : G) (e : exn) :
  np_random_seed init_by_seed s g = (Raise e, g') → e = "ValueError".
Proof. unfold np_random_seed. destruct (_ && _); by intros [= <-]. Qed.

Lemma np_random_exponential_Raise (scale : F) (size : Z) (g g' : G) (e : exn) :
  np_random_exponential standard_exponential scale size g = (Raise e, g') →
  e = "ValueError".
Proof.
  unfold np_random_exponential.
  destruct (f_ltb scale f_zero); [by intros [= <-]|].
  destruct (size <? 0)%Z; [by intros [= <-]|].
  by destruct (draws standard_exponential (Z.to_nat size) scale g).
Qed.

Lemma py_div_Raise (x y : F) (e : exn) :
  py_div x y = Raise e → e = "ZeroDivisionError".
Proof. unfold py_div. destruct (f_eqb y f_zero); by intros [= <-]. Qed.

Lemma py_div_Ok (x y q : F) :
  py_div x y = Ok q → f_eqb y f_zero = false ∧ q = f_div x y.
Proof. unfold py_div. destruct (f_eqb y f_zero); by intros [= <-]. Qed.

(** With no customer the trace is empty and its last end time does not
    exist. *)
Lemma no_customer_IndexError (service : list F) :
  (simulate_queue 0 [] service ≫= λ '(_, t), compute_metrics 0 service t)
  = Raise "IndexError".
Proof. reflexivity. Qed.

End Failures.

(** In exact arithmetic, the scale [1 / rate] of a rate that is not
    positive is negative, unless the rate is zero. *)
Lemma Q_scale_negative (rate : Q) :
  f_eqb rate f_zero = false → (rate <= 0)%Q →
  f_ltb (f_div (f_of_Z 1) rate) f_zero = true.
Proof.
  destruct rate as [[|p|p] d]; cbn.
  - unfold Qeq_bool. cbn. done.
  - intros _ Hle. unfold Qle in Hle. cbn in Hle. lia.
  - done.
Qed.

(** A positive rate has a scale that NumPy accepts. *)
Lemma Q_scale_accepted (rate : Q) :
  (0 < rate)%Q →
  f_eqb rate f_zero = false ∧ f_ltb (f_div (f_of_Z 1) rate) f_zero = false.
Proof.
  intros Hpos. split.
  - cbn. destruct (Qeq_bool rate 0) eqn:E; [|done].
    apply Qeq_bool_iff in E. lra.
  - cbn. apply negb_false_iff, Qle_bool_iff. unfold Qdiv.
    apply Qmult_le_0_compat; [done|]. apply Qinv_le_0_compat. lra.
Qed.

(** Within the ranges that make sense (positive rates, at least one
    customer, a seed that NumPy accepts) the run raises nothing: it returns
    [n] inter-arrival times, [n] service times and a trace of [n] records
    (exact arithmetic). *)
Lemma run_simulation_returns {G : Type}
    (init_by_seed : Z → G) (standard_exponential : G → Q * G)
    (arrival_rate service_rate : Q) (n : nat) (random_seed : Z) (g : G) :
  (0 < arrival_rate)%Q → (0 < service_rate)%Q → 1 ≤ n →
  (0 ≤ random_seed < 2 ^ 32)%Z →
  ∃ r g',
    run_simulation init_by_seed standard_exponential
      arrival_rate service_rate (Z.of_nat n) random_seed g = (Ok r, g')
    ∧ length (inter_arrival_times r) = n ∧ length (service_times r) = n
    ∧ arrival_times r = np_cumsum (inter_arrival_times r)
    ∧ trace_length (records r) n.
Proof.
  intros Ha Hs Hn Hseed.
  destruct (Q_scale_accepted arrival_rate Ha) as [Ha0 Hsa].
  destruct (Q_scale_accepted service_rate Hs) as [Hs0 Hss].
  unfold run_simulation.
  rewrite (M_bind_Ok _ _ g (init_by_seed random_seed) ()).
  2:{ unfold np_random_seed.
      destruct (Z.leb_spec 0 random_seed), (Z.ltb_spec random_seed (2 ^ 32));
        cbn; done || lia. }
  unfold py_div. rewrite Ha0, Hs0.
  rewrite (M_bind_Ok (lift (Ok _)) _ _ _ _ eq_refl).
  destruct (draws standard_exponential n (f_div (f_of_Z 1) arrival_rate)
              (init_by_seed random_seed)) as [ia g1] eqn:Hia.
  rewrite (M_bind_Ok _ _ _ g1 ia).
  2:{ unfold np_random_exponential. rewrite Hsa.
      destruct (Z.ltb_spec (Z.of_nat n) 0); [lia|]. by rewrite Nat2Z.id, Hia. }
  rewrite (M_bind_Ok (lift (Ok _)) _ _ _ _ eq_refl).
  destruct (draws standard_exponential n (f_div (f_of_Z 1) service_rate) g1)
    as [sv g2] eqn:Hsv.
  rewrite (M_bind_Ok _ _ _ g2 sv).
  2:{ unfold np_random_exponential. rewrite Hss.
      destruct (Z.ltb_spec (Z.of_nat n) 0); [lia|]. by rewrite Nat2Z.id, Hsv. }
  assert (length ia = n) as Hlia.
  { pose proof (length_draws standard_exponential n
                  (f_div (f_of_Z 1) arrival_rate) (init_by_seed random_seed)) as Hl.
    by rewrite Hia in Hl. }
  assert (length sv = n) as Hlsv.
  { pose proof (length_draws standard_exponential n
                  (f_div (f_of_Z 1) service_rate) g1) as Hl.
    by rewrite Hsv in Hl. }
  destruct (simulate_queue_inv ia sv n Hlia Hlsv) as (t & Hq & Hlen & _).
  rewrite (M_bind_Ok (lift _) _ g2 g2 (np_cumsum ia, t)) by (unfold lift; by rewrite Hq).
  destruct (lookup_lt_is_Some_2 (end_times t) (length (end_times t) - 1))
    as [e_last Hlast].
  { destruct Hlen as (_ & -> & _). lia. }
  rewrite (M_bind_Ok (lift _) _ g2 g2 _
             (f_equal (λ x, (x, g2)) (compute_metrics_ok (Z.of_nat n) sv t e_last Hlast))).
  eexists _, g2. split; [reflexivity|]. done.
Qed.




(** * A horizon of length zero *)

Section Binary64.
Open Scope float_scope.

(** A float that compares equal to zero is one of the two zeros. *)
Lemma float_eqb_zero (z : float) :
  (z =? 0) = true → ∃ s, Prim2SF z = S754_zero s.
Proof.
  rewrite FloatAxioms.eqb_spec. change (Prim2SF 0) with (S754_zero false).
  destruct (Prim2SF z) as [s|[]| |[] m e]; cbn; try done.
  by exists s.
Qed.

Lemma SF_not_finite (r : spec_float) (x : float) :
  Prim2SF x = r → (r = S754_nan ∨ ∃ s, r = S754_infinity s) →
  is_finite x = false.
Proof.
  intros Hx Hr. unfold is_finite, is_nan, is_infinity.
  rewrite !FloatAxioms.eqb_spec, abs_spec, Hx.
  change (Prim2SF infinity) with (S754_infinity false).
  destruct Hr as [->|[s ->]]; [done|]. by destruct s.
Qed.

(** In binary64 a quotient by zero is an infinity or NaN. *)
Lemma float_div_zero (x z : float) :
  (z =? 0) = true → is_finite (x / z) = false.
Proof.
  intros Hz. destruct (float_eqb_zero z Hz) as [sz Ez].
  apply (SF_not_finite (SFdiv prec emax (Prim2SF x) (Prim2SF z))).
  - apply div_spec.
  - rewrite Ez. destruct (Prim2SF x) as [s| s| |s m e]; cbn; eauto.
Qed.

End Binary64.

(** C6, as the code has it: when [end_time[n-1] = 0] the metrics engine
    raises nothing; [utilization] and [throughput] are the binary64
    quotients by that zero, each an infinity or NaN (never [None], and not
    NaN in general).  The trace is
    an input of the metrics and is not changed by them. *)
Theorem degenerate_horizon_metrics (service : list float) (t : trace float)
    (n : nat) (e_last : float) :
  trace_length t n → end_times t !! (n - 1) = Some e_last →
  PrimFloat.eqb e_last 0 = true →
  ∃ m, compute_metrics (Z.of_nat n) service t = Ok m
       ∧ utilization m = PrimFloat.div (np_sum service) e_last
       ∧ throughput m = PrimFloat.div (f_of_Z (Z.of_nat n)) e_last
       ∧ PrimFloat.is_finite (utilization m) = false
       ∧ PrimFloat.is_finite (throughput m) = false.
Proof.
  intros (_ & Hlen & _) Hlast Hzero.
  eexists. split.
  - apply compute_metrics_ok. rewrite Hlen. exact Hlast.
  - cbn. repeat split; by apply float_div_zero.
Qed.

Lemma degenerate_horizon_metrics_witness :
  ∃ m, compute_metrics (Z.of_nat 1) [0.25]%float
         (Trace [0] [0] [0] [0])%float = Ok m
       ∧ utilization m = PrimFloat.div (np_sum [0.25]%float) 0%float
       ∧ throughput m = PrimFloat.div (f_of_Z (Z.of_nat 1)) 0%float
       ∧ PrimFloat.is_finite (utilization m) = false
       ∧ PrimFloat.is_finite (throughput m) = false.
Proof.
  apply (degenerate_horizon_metrics [0.25]%float (Trace [0] [0] [0] [0])%float
           1 0%float); [repeat split | reflexivity | reflexivity].
Defined.

(** C6, as the specification has it, fails: for one customer with
    inter-arrival time 0.5 and service time 0.25 the trace is the zero
    record, its last end time is 0, and the metrics are returned with
    [utilization = throughput = +infinity], which is not NaN. *)
Lemma single_customer_metrics_infinite :
  ∃ t m,
    simulate_queue (F:=float) 1 [0.5]%float [0.25]%float = Ok ([0.5]%float, t)
    ∧ t = Trace [0]%float [0]%float [0]%float [0]%float
    ∧ compute_metrics 1 [0.25]%float t = Ok m
    ∧ utilization m = infinity ∧ throughput m = infinity
    ∧ PrimFloat.is_nan (utilization m) = false
    ∧ PrimFloat.is_nan (throughput m) = false.
Proof.
  eexists. eexists. split; [vm_compute; reflexivity|].
  split; [reflexivity|]. split; [vm_compute; reflexivity|].
  repeat split; vm_compute; reflexivity.
Qed.

(** * The first record *)

(** C2 fails on the code: the loop starts at index 1, so record 0 is never
    derived from its arrival.  On a run with 100 customers (arrival rate 2,
    service rate 4, seed 42, counter generator) the first customer arrives
    at 21.5 and needs 35.75 of service, yet its start, end, wait and
    turnaround times are all 0: service "starts" before the arrival. *)
Example first_record_left_at_zero :
  ∃ r g',
    run_simulation (F:=float) counter_seed counter_draw 2%float 4%float 100 42 0%Z
      = (Ok r, g')
    ∧ arrival_times r !! 0 = Some 21.5%float
    ∧ service_times r !! 0 = Some 35.75%float
    ∧ start_times (records r) !! 0 = Some 0%float
    ∧ end_times (records r) !! 0 = Some 0%float
    ∧ wait_times (records r) !! 0 = Some 0%float
    ∧ turnaround_times (records r) !! 0 = Some 0%float
    ∧ PrimFloat.eqb 0%float 21.5%float = false.
Proof.
  eexists. eexists. split; [vm_compute; reflexivity|].
  repeat split.
Qed.

(** * Further properties of the run *)

Section RunShape.
Context {F : Type} `{Arith F} {G : Type}.
Variable init_by_seed : Z → G.
Variable standard_exponential : G → F * G.

Lemma np_random_seed_Ok (s : Z) (g : G) :
  (0 ≤ s < 2 ^ 32)%Z → np_random_seed init_by_seed s g = (Ok (), init_by_seed s).
Proof.
  intros Hs. unfold np_random_seed.
  destruct (Z.leb_spec 0 s), (Z.ltb_spec s (2 ^ 32)); cbn; done || lia.
Qed.

Lemma np_random_exponential_Ok (scale : F) (n : nat) (g : G) :
  f_ltb scale f_zero = false →
  np_random_exponential standard_exponential scale (Z.of_nat n) g
  = (Ok (draws standard_exponential n scale g).1,
     (draws standard_exponential n scale g).2).
Proof.
  intros Hscale. unfold np_random_exponential. rewrite Hscale.
  destruct (Z.ltb_spec (Z.of_nat n) 0); [lia|]. rewrite Nat2Z.id.
  by destruct (draws standard_exponential n scale g).
Qed.

(** The run on parameters that pass every check of Python and NumPy. *)
Lemma run_simulation_accepted (arrival_rate service_rate : F) (n : nat)
    (random_seed : Z) (g : G) :
  (0 ≤ random_seed < 2 ^ 32)%Z →
  f_eqb arrival_rate f_zero = false →
  f_ltb (f_div (f_of_Z 1) arrival_rate) f_zero = false →
  f_eqb service_rate f_zero = false →
  f_ltb (f_div (f_of_Z 1) service_rate) f_zero = false →
  1 ≤ n →
  ∃ r g',
    run_simulation init_by_seed standard_exponential
      arrival_rate service_rate (Z.of_nat n) random_seed g = (Ok r, g').
Proof.
  intros Hseed Ha0 Hsa Hs0 Hss Hn. unfold run_simulation.
  rewrite (M_bind_Ok _ _ _ _ _ (np_random_seed_Ok random_seed g Hseed)).
  unfold py_div. rewrite Ha0, Hs0.
  rewrite (M_bind_Ok (lift (Ok _)) _ _ _ _ eq_refl).
  rewrite (M_bind_Ok _ _ _ _ _ (np_random_exponential_Ok _ n _ Hsa)).
  rewrite (M_bind_Ok (lift (Ok _)) _ _ _ _ eq_refl).
  rewrite (M_bind_Ok _ _ _ _ _ (np_random_exponential_Ok _ n _ Hss)).
  set (d1 := draws standard_exponential n (f_div (f_of_Z 1) arrival_rate)
               (init_by_seed random_seed)).
  set (d2 := draws standard_exponential n (f_div (f_of_Z 1) service_rate) d1.2).
  destruct (simulate_queue_inv d1.1 d2.1 n) as (t & Hq & Hlen & _);
    [apply length_draws | apply length_draws |].
  rewrite (M_bind_Ok (lift _) _ d2.2 d2.2 (np_cumsum d1.1, t))
    by (unfold lift; by rewrite Hq).
  destruct (lookup_lt_is_Some_2 (end_times t) (length (end_times t) - 1))
    as [e_last Hlast].
  { destruct Hlen as (_ & -> & _). lia. }
  rewrite (M_bind_Ok (lift _) _ d2.2 d2.2 _
             (f_equal (λ x, (x, d2.2))
                (compute_metrics_ok (Z.of_nat n) d2.1 t e_last Hlast))).
  eexists _, d2.2. reflexivity.
Qed.

(** The arrays of a run that returns. *)
Lemma run_simulation_lengths (arrival_rate service_rate : F)
    (num_customers random_seed : Z) (g g' : G) (r : SimulationResult F) :
  run_simulation init_by_seed standard_exponential
    arrival_rate service_rate num_customers random_seed g = (Ok r, g') →
  ∃ n : nat,
    num_customers = Z.of_nat n ∧ 1 ≤ n
    ∧ length (inter_arrival_times r) = n ∧ length (service_times r) = n
    ∧ arrival_times r = np_cumsum (inter_arrival_times r)
    ∧ trace_inv (arrival_times r) (service_times r) n n (records r).
Proof.
  intros Hrun.
  apply run_simulation_inv in Hrun
    as (scale_a & scale_s & g1 & _ & Hn & _ & _ & Hia & Hsv & Hq & Hm).
  exists (Z.to_nat num_customers).
  assert (length (inter_arrival_times r) = Z.to_nat num_customers) as Hlia.
  { pose proof (length_draws standard_exponential (Z.to_nat num_customers)
                  scale_a (init_by_seed random_seed)) as Hl.
    by rewrite Hia in Hl. }
  assert (length (service_times r) = Z.to_nat num_customers) as Hlsv.
  { pose proof (length_draws standard_exponential (Z.to_nat num_customers)
                  scale_s g1) as Hl.
    by rewrite Hsv in Hl. }
  destruct (simulate_queue_inv _ _ _ Hlia Hlsv) as (t & Hq' & Hinv).
  rewrite Z2Nat.id in Hq' by done. rewrite Hq in Hq'. injection Hq' as Harr Ht.
  assert (1 ≤ Z.to_nat num_customers) as Hpos.
  { destruct (Z.to_nat num_customers) as [|k] eqn:Hk; [|lia].
    destruct Hinv as ((_ & Hlen & _) & _). rewrite <- Ht in Hlen.
    apply nil_length_inv in Hlen. unfold compute_metrics in Hm.
    rewrite Hlen, getitem_nil in Hm. done. }
  split; [lia|]. split; [done|]. split; [done|]. split; [done|].
  split; [done|]. rewrite Harr, Ht.
  by replace (Nat.max (Z.to_nat num_customers) 1) with (Z.to_nat num_customers)
    in Hinv by lia.
Qed.

End RunShape.

(** X1: a run that returns has at least one customer, and each of its seven
    arrays (inter-arrival, service, arrival, start, end, wait and turnaround
    times) has exactly [num_customers] entries; holds in every
    arithmetic. *)
Theorem returned_run_has_n_records {F} `{Arith F} {G : Type}
    (init_by_seed : Z → G) (standard_exponential : G → F * G)
    (arrival_rate service_rate : F) (num_customers random_seed : Z)
    (g g' : G) (r : SimulationResult F) :
  run_simulation init_by_seed standard_exponential
    arrival_rate service_rate num_customers random_seed g = (Ok r, g') →
  (1 ≤ num_customers)%Z
  ∧ Z.of_nat (length (inter_arrival_times r)) = num_customers
  ∧ Z.of_nat (length (service_times r)) = num_customers
  ∧ Z.of_nat (length (arrival_times r)) = num_customers
  ∧ Z.of_nat (length (start_times (records r))) = num_customers
  ∧ Z.of_nat (length (end_times (records r))) = num_customers
  ∧ Z.of_nat (length (wait_times (records r))) = num_customers
  ∧ Z.of_nat (length (turnaround_times (records r))) = num_customers.
Proof.
  intros Hrun.
  destruct (run_simulation_lengths _ _ _ _ _ _ _ _ _ Hrun)
    as (n & -> & Hn & Hia & Hsv & Harr & (Hs & He & Hw & Ht) & _).
  rewrite Harr, length_np_cumsum, Hia, Hsv, Hs, He, Hw, Ht.
  repeat split; lia.
Qed.

Lemma returned_run_has_n_records_witness :
  (1 ≤ 3)%Z
  ∧ Z.of_nat (length [21.5; 22; 22.5]%float) = 3%Z
  ∧ Z.of_nat (length [11.5; 11.75; 12]%float) = 3%Z
  ∧ Z.of_nat (length [21.5; 43.5; 66]%float) = 3%Z
  ∧ Z.of_nat (length [0; 43.5; 66]%float) = 3%Z
  ∧ Z.of_nat (length [0; 55.25; 78]%float) = 3%Z
  ∧ Z.of_nat (length [0; 0; 0]%float) = 3%Z
  ∧ Z.of_nat (length [0; 11.75; 12]%float) = 3%Z.
Proof.
  apply (returned_run_has_n_records (F:=float) counter_seed counter_draw
           2%float 4%float 3 42 0%Z 48%Z
           (Build_SimulationResult
              [21.5; 22; 22.5]%float
              [11.5; 11.75; 12]%float
              [21.5; 43.5; 66]%float
              (Trace [0; 43.5; 66]%float [0; 55.25; 78]%float
                     [0; 0; 0]%float [0; 11.75; 12]%float)
              (Metrics 0%float (23.75 / 3)%float (35.25 / 78)%float (3 / 78)%float))).
  vm_compute. reflexivity.
Defined.



(** ** In the ranges of the sliders, in binary64 *)

Section Binary64Sign.
Open Scope float_scope.

(** A float above zero is a positive number or [+infinity]. *)
Lemma float_positive (x : float) :
  (0 <? x) = true →
  (∃ m e, Prim2SF x = S754_finite false m e) ∨ Prim2SF x = S754_infinity false.
Proof.
  rewrite ltb_spec. change (Prim2SF 0) with (S754_zero false).
  destruct (Prim2SF x) as [s|[]| |[] m e]; cbn; try done; eauto.
Qed.

(** Rounding keeps the sign it is given. *)
Lemma binary_round_aux_not_negative (mx ex : Z) (lx : location) :
  SFltb (binary_round_aux prec emax false mx ex lx) (S754_zero false) = false.
Proof.
  unfold binary_round_aux.
  destruct (shr_fexp prec emax mx ex lx) as [mrs' e'].
  destruct (shr_fexp prec emax _ e' loc_Exact) as [mrs'' e''].
  destruct (shr_m mrs'') as [|m|m]; [done| |done].
  by destruct (e'' <=? emax - prec)%Z.
Qed.

(** A rate above zero is not zero and its scale [1 / rate] is not below
    zero: Python and NumPy accept it. *)
Lemma float_rate_accepted (rate : float) :
  (0 <? rate) = true →
  f_eqb rate f_zero = false ∧ f_ltb (f_div (f_of_Z 1) rate) f_zero = false.
Proof.
  intros Hpos. change (f_of_Z 1) with (SF2Prim (binary_normalize prec emax 1 0 false)).
  assert (SF2Prim (binary_normalize prec emax 1 0 false) = 1) as -> by reflexivity.
  cbn [f_eqb f_ltb f_div f_zero float_arith].
  rewrite FloatAxioms.eqb_spec, ltb_spec, div_spec.
  change (Prim2SF 0) with (S754_zero false).
  change (Prim2SF 1) with (S754_finite false 4503599627370496 (-52)).
  destruct (float_positive rate Hpos) as [(m & e & ->)| ->]; [|done].
  split; [done|]. unfold SF64div, SFdiv.
  destruct (SFdiv_core_binary prec emax _ _ _ _) as [[mz ez] lz].
  apply binary_round_aux_not_negative.
Qed.

(** Every value of a rate slider is above zero. *)
Lemma slider_rate_positive (rate : float) :
  (0x1.999999999999ap-4 <=? rate) = true → (0 <? rate) = true.
Proof.
  rewrite leb_spec, ltb_spec.
  change (Prim2SF 0) with (S754_zero false).
  change (Prim2SF 0x1.999999999999ap-4)
    with (S754_finite false 7205759403792794 (-56)).
  by destruct (Prim2SF rate) as [s|[]| |[] m e].
Qed.

End Binary64Sign.

(** X3: in binary64, for every value the sliders can deliver (rates in
    [0.1, 10.0], 100 to 2000 customers, seed 0 to 9999) and whatever the
    generator draws, the run raises nothing and returns a result with
    exactly [num_customers] records. *)
Theorem slider_values_run {G : Type}
    (init_by_seed : Z → G) (standard_exponential : G → float * G)
    (arrival_rate service_rate : float) (num_customers random_seed : Z) (g : G) :
  slider_values arrival_rate service_rate num_customers random_seed →
  ∃ r g',
    run_simulation init_by_seed standard_exponential
      arrival_rate service_rate num_customers random_seed g = (Ok r, g')
    ∧ Z.of_nat (length (arrival_times r)) = num_customers
    ∧ Z.of_nat (length (start_times (records r))) = num_customers
    ∧ Z.of_nat (length (end_times (records r))) = num_customers
    ∧ Z.of_nat (length (wait_times (records r))) = num_customers
    ∧ Z.of_nat (length (turnaround_times (records r))) = num_customers.
Proof.
  intros (Ha1 & _ & Hs1 & _ & Hn & Hseed).
  destruct (float_rate_accepted arrival_rate (slider_rate_positive _ Ha1)) as [Ha0 Hsa].
  destruct (float_rate_accepted service_rate (slider_rate_positive _ Hs1)) as [Hs0 Hss].
  destruct (run_simulation_accepted init_by_seed standard_exponential
              arrival_rate service_rate (Z.to_nat num_customers) random_seed g)
    as (r & g' & Hrun); try done; try lia.
  rewrite Z2Nat.id in Hrun by lia.
  exists r, g'. split; [done|].
  destruct (run_simulation_lengths _ _ _ _ _ _ _ _ _ Hrun)
    as (n & -> & _ & Hia & _ & Harr & (Hs & He & Hw & Ht) & _).
  rewrite Harr, length_np_cumsum, Hia, Hs, He, Hw, Ht. done.
Qed.

Lemma slider_values_run_witness :
  ∃ r g',
    run_simulation (F:=float) counter_seed counter_draw
      2%float 3%float 1000 42 0%Z = (Ok r, g')
    ∧ Z.of_nat (length (arrival_times r)) = 1000%Z
    ∧ Z.of_nat (length (start_times (records r))) = 1000%Z
    ∧ Z.of_nat (length (end_times (records r))) = 1000%Z
    ∧ Z.of_nat (length (wait_times (records r))) = 1000%Z
    ∧ Z.of_nat (length (turnaround_times (records r))) = 1000%Z.
Proof.
  apply (slider_values_run counter_seed counter_draw 2%float 3%float 1000 42 0%Z).
  repeat split; reflexivity || lia.
Defined.

(** * Further properties of the trace *)

Section TraceDependence.
Context {F : Type} `{Arith F}.
Implicit Types (t : trace F) (arrival service : list F).

Lemma for_each_ext {S} (indices : list Z) (body1 body2 : Z → S → result S) (s : S) :
  (∀ i s', i ∈ indices → body1 i s' = body2 i s') →
  for_each indices body1 s = for_each indices body2 s.
Proof.
  revert s. induction indices as [|i rest IH]; intros s Hext; [done|].
  cbn. rewrite Hext by apply list_elem_of_here.
  destruct (body2 i s) as [s'|e]; cbn; [|done].
  apply IH. intros j s'' Hj. apply Hext. by apply list_elem_of_further.
Qed.

Lemma py_range_ge (a b i : Z) : i ∈ py_range a b → (a ≤ i)%Z.
Proof.
  unfold py_range. intros Hi.
  apply list_elem_of_fmap in Hi as (k & -> & _). lia.
Qed.

(** Past its head, an array is read the same whatever the head is. *)
Lemma getitem_past_head {A} (x y : A) (l : list A) (i : Z) :
  (1 ≤ i)%Z → getitem (x :: l) i = getitem (y :: l) i.
Proof.
  intros Hi. unfold getitem, resolve_index. cbn [length].
  destruct (Z.ltb_spec i 0); [lia|].
  destruct ((i <? 0)%Z || (Z.of_nat (S (length l)) <=? i)%Z)%bool; [done|].
  cbn. destruct (Z.to_nat i) as [|k] eqn:Hk; [lia|]. done.
Qed.

Lemma simulate_step_past_head arrival (s0 s0' : F) service (i : Z) t :
  (1 ≤ i)%Z →
  simulate_step arrival (s0 :: service) i t = simulate_step arrival (s0' :: service) i t.
Proof.
  intros Hi. unfold simulate_step.
  by rewrite (getitem_past_head s0 s0' service i Hi).
Qed.

End TraceDependence.

(** X4: the service time of the first customer is never read by the
    simulator: changing [service_times[0]] alone changes nothing in the
    arrival times or in any record of the trace (nor the exception, if one
    is raised).  Holds in every arithmetic and for arrays of any length. *)
Theorem trace_ignores_first_service_time {F} `{Arith F}
    (num_customers : Z) (inter_arrival : list F) (s0 s0' : F) (service : list F) :
  simulate_queue num_customers inter_arrival (s0 :: service)
  = simulate_queue num_customers inter_arrival (s0' :: service).
Proof.
  unfold simulate_queue.
  destruct (np_zeros num_customers) as [zeros|e]; cbn; [|done].
  rewrite (for_each_ext _ _ (simulate_step (np_cumsum inter_arrival) (s0' :: service)));
    [done|].
  intros i t Hi. apply simulate_step_past_head. by apply py_range_ge in Hi.
Qed.

(** ** Queueing identities, in exact arithmetic *)

Section QueueFacts.
Open Scope Q_scope.

Lemma Q_ltb_spec (a b : Q) : if f_ltb a b then a < b else b <= a.
Proof.
  destruct (f_ltb a b) eqn:E; [by apply Q_ltb_true|by apply Q_ltb_false].
Qed.

(** Waiting is what is left of the backlog: [max(a, e) - a = max(0, e - a)]. *)
Lemma py_max_shift (a e d : Q) : d == e - a → py_max a e - a == py_max 0 d.
Proof.
  intros Hd. unfold py_max.
  pose proof (Q_ltb_spec a e) as H1. pose proof (Q_ltb_spec 0 d) as H2.
  destruct (f_ltb a e), (f_ltb 0 d); lra.
Qed.

Lemma py_max_least (a e c : Q) : a <= c → e <= c → py_max a e <= c.
Proof. intros Ha He. unfold py_max. by destruct (f_ltb a e). Qed.

Lemma py_max_mono_r (a e e' : Q) : e <= e' → py_max a e <= py_max a e'.
Proof.
  intros He. apply py_max_least; [apply py_max_ge_l|].
  apply Qle_trans with e'; [done|apply py_max_ge_r].
Qed.

Lemma py_max_of_zero (a : Q) : 0 <= a → py_max a 0 = a.
Proof.
  intros Ha. unfold py_max. pose proof (Q_ltb_spec a 0) as Hlt.
  destruct (f_ltb a 0); [lra|done].
Qed.

Lemma Forall_lookup_nonneg (l : list Q) (i : nat) (x : Q) :
  Forall (λ x, 0 <= x) l → l !! i = Some x → 0 <= x.
Proof.
  intros Hpos Hx. rewrite Forall_forall in Hpos. apply Hpos.
  by eapply list_elem_of_lookup_2.
Qed.

End QueueFacts.







(** The service times of the customers [1 .. k] have passed when customer
    [k] ends. *)
Lemma served_time_le_end (arrival service : list Q) (n : nat) (t : trace Q) :
  trace_inv arrival service n (Nat.max n 1) t →
  ∀ k e, k < n → end_times t !! k = Some e →
    (np_sum (take k (drop 1 service)) <= e)%Q.
Proof.
  intros (_ & Hzero & Hrec). induction k as [|k IH]; intros e Hk He.
  - destruct (Hzero 0) as (_ & Z2 & _); [lia|by left|].
    assert (e = 0%Q) as -> by (cbn in Z2; congruence). cbn. apply Qle_refl.
  - destruct (Hrec (S k)) as (a & e' & s & Ha & He' & Hs & _ & R2 & _); [lia|].
    replace (S k - 1) with k in He' by lia.
    assert (e = f_add (py_max a e') s) as -> by congruence.
    rewrite (take_S_r _ _ s) by (by rewrite lookup_drop).
    rewrite np_sum_snoc.
    pose proof (IH e' ltac:(lia) He') as Hle.
    pose proof (py_max_ge_r a e') as Hr.
    revert Hle Hr. generalize (np_sum (take k (drop 1 service))).
    generalize (py_max a e'). intros m c Hle Hr. cbn. lra.
Qed.

Lemma foldl_Qplus (acc : Q) (l : list Q) :
  (foldl Qplus acc l == acc + foldl Qplus 0 l)%Q.
Proof.
  revert acc. induction l as [|x l IH]; intros acc; cbn; [lra|].
  rewrite (IH (acc + x)%Q), (IH (0 + x)%Q). lra.
Qed.

Lemma np_sum_cons (x : Q) (l : list Q) : (np_sum (x :: l) == x + np_sum l)%Q.
Proof. unfold np_sum. cbn. rewrite foldl_Qplus. lra. Qed.





(** * The stream of samples *)

Section StreamFacts.
Context {F : Type} `{Arith F} {G : Type}.
Variable standard_exponential : G → F * G.

(** The scaled draws are the samples, each multiplied by the scale; the
    scale has no influence on the generator. *)
Lemma draws_samples (k : nat) (scale : F) (g : G) :
  draws standard_exponential k scale g
  = (f_mul scale <$> (samples standard_exponential k g).1,
     (samples standard_exponential k g).2).
Proof.
  revert g. induction k as [|k IH]; intros g; cbn; [done|].
  destruct (standard_exponential g) as [x g1]. rewrite IH.
  by destruct (samples standard_exponential k g1) as [xs g2].
Qed.

(** Drawing [k] samples and then [m] is drawing [k + m]. *)
Lemma samples_add (k m : nat) (g : G) :
  samples standard_exponential (k + m) g
  = ((samples standard_exponential k g).1
       ++ (samples standard_exponential m (samples standard_exponential k g).2).1,
     (samples standard_exponential m (samples standard_exponential k g).2).2).
Proof.
  revert g. induction k as [|k IH]; intros g; cbn.
  - by destruct (samples standard_exponential m g).
  - destruct (standard_exponential g) as [x g1]. rewrite IH.
    by destruct (samples standard_exponential k g1) as [xs g2].
Qed.

Lemma length_samples (k : nat) (g : G) :
  length (samples standard_exponential k g).1 = k.
Proof.
  revert g. induction k as [|k IH]; intros g; cbn; [done|].
  destruct (standard_exponential g) as [x g1]. specialize (IH g1).
  destruct (samples standard_exponential k g1) as [xs g2]. cbn in *. by rewrite IH.
Qed.

End StreamFacts.

(** X10: a run of [n] customers that returns has consumed exactly the
    first [2n] samples of the freshly seeded generator: the inter-arrival
    times are the first [n] samples times [1 / arrival_rate], the service
    times are the next [n] samples times [1 / service_rate], and the shared
    generator is left in the state after [2n] samples, whatever the rates
    are.  Holds in every arithmetic. *)
Theorem run_consumes_two_n_samples {F} `{Arith F} {G : Type}
    (init_by_seed : Z → G) (standard_exponential : G → F * G)
    (arrival_rate service_rate : F) (num_customers random_seed : Z)
    (g g' : G) (r : SimulationResult F) :
  run_simulation init_by_seed standard_exponential
    arrival_rate service_rate num_customers random_seed g = (Ok r, g') →
  ∃ (n : nat) (stream : list F),
    num_customers = Z.of_nat n
    ∧ samples standard_exponential (n + n) (init_by_seed random_seed) = (stream, g')
    ∧ inter_arrival_times r = f_mul (f_div (f_of_Z 1) arrival_rate) <$> take n stream
    ∧ service_times r = f_mul (f_div (f_of_Z 1) service_rate) <$> drop n stream.
Proof.
  intros Hrun.
  set (n := Z.to_nat num_customers).
  exists n, (samples standard_exponential (n + n) (init_by_seed random_seed)).1.
  assert (num_customers = Z.of_nat n) as Hn.
  { apply run_simulation_inv in Hrun as (_ & _ & _ & _ & Hn & _). lia. }
  split; [done|].
  set (stream := samples standard_exponential (n + n) (init_by_seed random_seed)).
  cut (inter_arrival_times r
         = f_mul (f_div (f_of_Z 1) arrival_rate) <$> take n stream.1
       ∧ service_times r
         = f_mul (f_div (f_of_Z 1) service_rate) <$> drop n stream.1
       ∧ g' = stream.2).
  { intros (H1 & H2 & ->). split; [by destruct stream|done]. }
  apply run_simulation_inv in Hrun
    as (scale_a & scale_s & g1 & _ & _ & Ha & Hs & Hia & Hsv & _).
  apply py_div_Ok in Ha as [_ ->]. apply py_div_Ok in Hs as [_ ->].
  rewrite draws_samples in Hia, Hsv. fold n in Hia, Hsv.
  injection Hia as Hia Hg1. injection Hsv as Hsv Hg'.
  subst stream. rewrite samples_add. cbn [fst snd].
  pose proof (length_samples standard_exponential n (init_by_seed random_seed)) as Hl.
  rewrite take_app_length' by done. rewrite drop_app_length' by done.
  rewrite Hg1. done.
Qed.

Lemma run_consumes_two_n_samples_witness :
  ∃ (n : nat) (stream : list float),
    3%Z = Z.of_nat n
    ∧ samples counter_draw (n + n) (counter_seed 42) = (stream, 48%Z)
    ∧ [21.5; 22; 22.5]%float = f_mul (f_div (f_of_Z 1) 2%float) <$> take n stream
    ∧ [11.5; 11.75; 12]%float = f_mul (f_div (f_of_Z 1) 4%float) <$> drop n stream.
Proof.
  apply (run_consumes_two_n_samples (F:=float) counter_seed counter_draw
           2%float 4%float 3 42 0%Z 48%Z
           (Build_SimulationResult
              [21.5; 22; 22.5]%float
              [11.5; 11.75; 12]%float
              [21.5; 43.5; 66]%float
              (Trace [0; 43.5; 66]%float [0; 55.25; 78]%float
                     [0; 0; 0]%float [0; 11.75; 12]%float)
              (Metrics 0%float (23.75 / 3)%float (35.25 / 78)%float (3 / 78)%float))).
  vm_compute. reflexivity.
Defined.

(** * The records of the first customers *)

Section PrefixFacts.
Context {F : Type} `{Arith F}.
Implicit Types (t : trace F) (arrival service : list F).

Lemma cumsum_from_take (acc : F) (l : list F) (k : nat) :
  cumsum_from acc (take k l) = take k (cumsum_from acc l).
Proof.
  revert acc k. induction l as [|x l IH]; intros acc [|k]; cbn; try done.
  by rewrite IH.
Qed.

Lemma np_cumsum_take (l : list F) (k : nat) :
  np_cumsum (take k l) = take k (np_cumsum l).
Proof. destruct l as [|x l], k as [|k]; cbn; try done. by rewrite cumsum_from_take. Qed.

(** Two finished traces agree on their first [k] records when their
    arrival and service times agree on the indices [1 .. k-1]. *)
Lemma trace_inv_agree arrival service (n : nat) t arrival' service' (n' : nat) t'
    (k : nat) :
  trace_inv arrival service n (Nat.max n 1) t →
  trace_inv arrival' service' n' (Nat.max n' 1) t' →
  k ≤ n → k ≤ n' →
  (∀ i, 1 ≤ i < k → arrival !! i = arrival' !! i ∧ service !! i = service' !! i) →
  ∀ i, i < k →
    start_times t !! i = start_times t' !! i
    ∧ end_times t !! i = end_times t' !! i
    ∧ wait_times t !! i = wait_times t' !! i
    ∧ turnaround_times t !! i = turnaround_times t' !! i.
Proof.
  intros (_ & Hzero & Hrec) (_ & Hzero' & Hrec') Hkn Hkn' Hin.
  induction i as [|i IH]; intros Hi.
  - destruct (Hzero 0) as (-> & -> & -> & ->); [lia|by left|].
    destruct (Hzero' 0) as (-> & -> & -> & ->); [lia|by left|]. done.
  - destruct (Hrec (S i)) as (a & e & s & Ha & He & Hs & -> & -> & -> & ->); [lia|].
    destruct (Hrec' (S i))
      as (a' & e' & s' & Ha' & He' & Hs' & -> & -> & -> & ->); [lia|].
    replace (S i - 1) with i in He, He' by lia.
    destruct (Hin (S i)) as [Harr Hsv]; [lia|].
    destruct (IH ltac:(lia)) as (_ & Hend & _).
    assert (a = a') as -> by congruence.
    assert (s = s') as -> by congruence.
    assert (e = e') as -> by congruence.
    done.
Qed.

End PrefixFacts.

(** X11: later customers do not change earlier records: the simulation of
    the first [k] customers alone gives the first [k] arrival times and the
    first [k] entries of the start, end, wait and turnaround times of the
    simulation of all [n].  Holds in every arithmetic. *)
Theorem earlier_records_ignore_later_customers {F} `{Arith F}
    (inter_arrival service : list F) (n k : nat) :
  length inter_arrival = n → length service = n → k ≤ n →
  ∃ arrival t,
    simulate_queue (Z.of_nat n) inter_arrival service = Ok (arrival, t)
    ∧ simulate_queue (Z.of_nat k) (take k inter_arrival) (take k service)
      = Ok (take k arrival,
            Trace (take k (start_times t)) (take k (end_times t))
                  (take k (wait_times t)) (take k (turnaround_times t))).
Proof.
  intros Hia Hsv Hk.
  destruct (simulate_queue_inv inter_arrival service n Hia Hsv) as (t & Hrun & Hinv).
  destruct (simulate_queue_inv (take k inter_arrival) (take k service) k)
    as (t' & Hrun' & Hinv'); [by rewrite length_take_le by lia ..|].
  exists (np_cumsum inter_arrival), t. split; [done|].
  rewrite Hrun', np_cumsum_take. do 2 f_equal.
  pose proof (trace_inv_agree _ _ _ _ _ _ _ _ k Hinv' Hinv (le_n k) Hk) as Hagree.
  assert (∀ i, i < k →
            start_times t' !! i = start_times t !! i
            ∧ end_times t' !! i = end_times t !! i
            ∧ wait_times t' !! i = wait_times t !! i
            ∧ turnaround_times t' !! i = turnaround_times t !! i) as Heq.
  { apply Hagree. intros i Hi. by rewrite np_cumsum_take, !lookup_take_lt by lia. }
  destruct Hinv as ((Hs & He & Hw & Ht) & _).
  destruct Hinv' as ((Hs' & He' & Hw' & Ht') & _).
  destruct t' as [st' en' wt' tt']. cbn in *.
  f_equal; apply (list_eq_same_length _ _ k);
    try (by rewrite length_take_le by lia); try done;
    intros i x y Hi Hx Hy; rewrite lookup_take_lt in Hy by done;
    destruct (Heq i Hi) as (E1 & E2 & E3 & E4); congruence.
Qed.

Lemma earlier_records_ignore_later_customers_witness :
  ∃ arrival t,
    simulate_queue (F:=Q) (Z.of_nat 3) [1 # 2; 1 # 4; 1]%Q [5; 3; 1 # 10]%Q
      = Ok (arrival, t)
    ∧ simulate_queue (Z.of_nat 2) (take 2 [1 # 2; 1 # 4; 1]%Q) (take 2 [5; 3; 1 # 10]%Q)
      = Ok (take 2 arrival,
            Trace (take 2 (start_times t)) (take 2 (end_times t))
                  (take 2 (wait_times t)) (take 2 (turnaround_times t))).
Proof.
  apply (earlier_records_ignore_later_customers (F:=Q)
           [1 # 2; 1 # 4; 1]%Q [5; 3; 1 # 10]%Q 3 2);
    [reflexivity | reflexivity | lia].
Defined.

(** * The Gantt chart *)

Section GanttFacts.
Context {F : Type}.
Implicit Types (t : trace F) (arrival : list F) (drawn : list (artist F)).

Lemma py_range_from_0 (m : nat) : py_range 0 (Z.of_nat m) = Z.of_nat <$> seq 0 m.
Proof.
  unfold py_range. rewrite Z.sub_0_r, Nat2Z.id.
  apply list_fmap_ext. intros _ k _. lia.
Qed.

Lemma py_min_100 (n : nat) : py_min 100 (Z.of_nat n) = Z.of_nat (Nat.min 100 n).
Proof. unfold py_min. destruct (Z.ltb_spec (Z.of_nat n) 100); lia. Qed.

Lemma gantt_step_ok arrival t drawn (i : nat) (s e a : F) :
  start_times t !! i = Some s → end_times t !! i = Some e → arrival !! i = Some a →
  gantt_step arrival t (Z.of_nat i) drawn
  = Ok ((drawn ++ [Plot s e (Z.of_nat i) (Z.of_nat i)]) ++ [Scatter a (Z.of_nat i)]).
Proof.
  intros Hs He Ha. unfold gantt_step.
  by rewrite (getitem_nat _ _ _ Hs), (getitem_nat _ _ _ He), (getitem_nat _ _ _ Ha).
Qed.

Lemma gantt_loop arrival t (n : nat) :
  length arrival = n → trace_length t n →
  ∀ (m k : nat) drawn, k + m ≤ n →
    length drawn = 2 * k → (∀ i, i < k → drawn_at arrival t drawn i) →
    ∃ drawn', for_each (Z.of_nat <$> seq k m) (gantt_step arrival t) drawn = Ok drawn'
              ∧ length drawn' = 2 * (k + m)
              ∧ ∀ i, i < k + m → drawn_at arrival t drawn' i.
Proof.
  intros Harr (Hs & He & _). induction m as [|m IH]; intros k drawn Hkm Hlen Hdrawn.
  - exists drawn. rewrite Nat.add_0_r. done.
  - destruct (lookup_lt_is_Some_2 (start_times t) k) as [s Hsk]; [lia|].
    destruct (lookup_lt_is_Some_2 (end_times t) k) as [e Hek]; [lia|].
    destruct (lookup_lt_is_Some_2 arrival k) as [a Hak]; [lia|].
    cbn [seq fmap list_fmap for_each].
    rewrite (gantt_step_ok arrival t drawn k s e a Hsk Hek Hak). cbn.
    destruct (IH (S k) ((drawn ++ [Plot s e (Z.of_nat k) (Z.of_nat k)])
                          ++ [Scatter a (Z.of_nat k)]))
      as (drawn' & Hrun & Hlen' & Hall).
    + lia.
    + rewrite !length_app. cbn. lia.
    + intros i Hi. destruct (decide (i = k)) as [->|Hne].
      * exists s, e, a. repeat (split; [done|]). split.
        -- rewrite lookup_app_l by (rewrite length_app; cbn; lia).
           by apply list_lookup_middle.
        -- apply list_lookup_middle. rewrite length_app. cbn. lia.
      * destruct (Hdrawn i) as (s' & e' & a' & H1 & H2 & H3 & H4 & H5); [lia|].
        exists s', e', a'. repeat (split; [done|]).
        rewrite <- (assoc_L (++)).
        split; rewrite lookup_app_l by lia; done.
    + exists drawn'. split; [done|].
      by replace (k + S m) with (S k + m) by lia.
Qed.

End GanttFacts.

(** X12: for arrays of [n] entries the Gantt loop raises nothing, also when
    there are fewer than 100 customers: it draws exactly [min(100, n)]
    segments and as many markers; customer [i] gets the segment from
    [start_times[i]] to [end_times[i]] and the marker at [arrival_times[i]],
    both at height [i].  Holds in every arithmetic. *)
Theorem gantt_chart_drawn {F} (arrival : list F) (t : trace F) (n : nat) :
  length arrival = n → trace_length t n →
  ∃ drawn,
    gantt_chart (Z.of_nat n) arrival t = Ok drawn
    ∧ length drawn = 2 * Nat.min 100 n
    ∧ ∀ i, i < Nat.min 100 n →
        ∃ s e a,
          start_times t !! i = Some s ∧ end_times t !! i = Some e
          ∧ arrival !! i = Some a
          ∧ drawn !! (2 * i) = Some (Plot s e (Z.of_nat i) (Z.of_nat i))
          ∧ drawn !! (2 * i + 1) = Some (Scatter a (Z.of_nat i)).
Proof.
  intros Harr Hlen. unfold gantt_chart.
  rewrite py_min_100, py_range_from_0.
  destruct (gantt_loop arrival t n Harr Hlen (Nat.min 100 n) 0 [])
    as (drawn & Hrun & Hlen' & Hall); [lia|done|intros i Hi; lia|].
  exists drawn. done.
Qed.

Lemma gantt_chart_drawn_witness :
  ∃ drawn,
    gantt_chart (Z.of_nat 2) [0.5; 0.75]%float
      (Trace [0; 0.75] [0; 1.25] [0; 0] [0; 0.5])%float = Ok drawn
    ∧ length drawn = 2 * Nat.min 100 2
    ∧ ∀ i, i < Nat.min 100 2 →
        ∃ s e a,
          [0; 0.75]%float !! i = Some s ∧ [0; 1.25]%float !! i = Some e
          ∧ [0.5; 0.75]%float !! i = Some a
          ∧ drawn !! (2 * i) = Some (Plot s e (Z.of_nat i) (Z.of_nat i))
          ∧ drawn !! (2 * i + 1) = Some (Scatter a (Z.of_nat i)).
Proof.
  apply (gantt_chart_drawn [0.5; 0.75]%float
           (Trace [0; 0.75] [0; 1.25] [0; 0] [0; 0.5])%float 2);
    [reflexivity | repeat split].
Defined.

(** * Light and heavy traffic, in exact arithmetic *)






